(** * ReactGoogleReviews: a shallow embedding of the component

    The source is [src/components/ReactGoogleReviews/ReactGoogleReviews.tsx].
    The component is modelled as the functions React calls:
    - [validate]: the two guards at the top of the function body;
    - [init_state]: the initial values given to [useState];
    - [run_effect]: the body of the [useEffect] keyed on [featurableId];
    - [on_settled]: the promise chain [.then/.catch/.finally] of the fetch;
    - [dispatch]: the JSX returned once the hooks have run;
    - [render]: the whole function body (guards, then [dispatch]);
    - [commit] and [settle]: one mounted instance across re-renders and
      fetch completions. *)

From Stdlib Require Import String Ascii List Bool ZArith QArith Lia.
From Stdlib Require Import Numbers.DecimalString.
Import ListNotations.
Open Scope string_scope.

(** ** JavaScript values *)

(** A JS number: finite values are rationals (every finite double is one),
    plus [NaN] and the two infinities. *)
Inductive jsnum :=
| JNum (q : Q)
| JNaN
| JPosInf
| JNegInf.

(** The relational operator [x < y] on numbers: any comparison with [NaN]
    is false. *)
Definition js_lt (x y : jsnum) : bool :=
  match x, y with
  | JNaN, _ | _, JNaN => false
  | JNum a, JNum b => negb (Qle_bool b a)
  | JNum _, JPosInf => true
  | JNum _, JNegInf => false
  | JPosInf, _ => false
  | JNegInf, JNegInf => false
  | JNegInf, _ => true
  end.

Definition js_gt (x y : jsnum) : bool := js_lt y x.

(** [Number.isInteger]. *)
Definition is_integer (x : jsnum) : bool :=
  match x with
  | JNum q => Z.eqb (Z.rem (Qnum q) (Zpos (Qden q))) 0
  | _ => false
  end.

(** A possibly absent value: [undefined], [null] or a value. *)
Inductive nv (A : Type) :=
| Undefined
| Null
| Val (a : A).
Arguments Undefined {A}.
Arguments Null {A}.
Arguments Val {A} a.

(** [x != null] (loose inequality: neither [null] nor [undefined]). *)
Definition not_nullish {A} (x : nv A) : bool :=
  match x with Val _ => true | _ => false end.

(** [x ?? null]. *)
Definition or_null {A} (x : nv A) : nv A :=
  match x with Val a => Val a | _ => Null end.

(** [x === null] (strict: [undefined] is not [null]). *)
Definition is_null {A} (x : nv A) : bool :=
  match x with Null => true | _ => false end.

(** Truthiness of an optional boolean ([undefined] and [null] are falsy). *)
Definition truthy_bool (b : nv bool) : bool :=
  match b with Val true => true | _ => false end.

(** Truthiness of an optional string: the empty string is falsy. *)
Definition truthy_str (s : option string) : bool :=
  match s with Some s => negb (String.eqb s "") | None => false end.

(** ** Number to string (template interpolation [${n}]) *)

Definition Z_to_string (z : Z) : string :=
  NilEmpty.string_of_int (Z.to_int z).

Fixpoint zeros (n : nat) : string :=
  match n with O => "" | S n => "0" ++ zeros n end.

(** Least [k <= fuel] with [a * 10^k] divisible by [d]. *)
Fixpoint decimal_scale (fuel : nat) (a d k : Z) : Z :=
  if Z.eqb (Z.modulo (a * 10 ^ k) d) 0 then k
  else match fuel with O => k | S f => decimal_scale f a d (k + 1) end.

(** Positional decimal form of a rational, cut off after at most 20 decimal
    places. It matches JS's [String(x)] for numbers whose exact decimal
    expansion has at most 20 decimals and whose magnitude lies in
    [1e-6, 1e21). It does not model exponent notation or JS's shortest
    round-trip digits for other doubles. *)
Definition show_Q (q : Q) : string :=
  let n := Qnum q in
  let d := Zpos (Qden q) in
  let sign := if Z.ltb n 0 then "-" else "" in
  let a := Z.abs n in
  let k := decimal_scale 20 a d 0 in
  let m := Z.div (a * 10 ^ k) d in
  if Z.eqb k 0 then sign ++ Z_to_string m
  else
    let digits := Z_to_string m in
    let padded := zeros (S (Z.to_nat k) - String.length digits)%nat ++ digits in
    let int_len := (String.length padded - Z.to_nat k)%nat in
    sign ++ substring 0 int_len padded ++ "." ++
    substring int_len (Z.to_nat k) padded.

Definition number_to_string (x : jsnum) : string :=
  match x with
  | JNum q => show_Q q
  | JNaN => "NaN"
  | JPosInf => "Infinity"
  | JNegInf => "-Infinity"
  end.

(** [${x}] for a value that may be [undefined] or [null]. *)
Definition nv_number_to_string (x : nv jsnum) : string :=
  match x with
  | Undefined => "undefined"
  | Null => "null"
  | Val n => number_to_string n
  end.

(** ** Data model *)

(** [GoogleReview] (from [types/review]): the fields the component reads. *)
Record reviewer := {
  displayName : string;
  isAnonymous : bool
}.

Record review := {
  reviewer_of : reviewer;
  comment : string;
  createTime : string;
  starRating : jsnum
}.

(** The [layout] discriminant; [profileUrl] is a prop of the badge layout
    only, the custom renderer is recorded by the sequence it is called with. *)
Inductive layout :=
| LCarousel
| LBadge (profileUrl : option string)
| LCustom.

(** The props the core reads ([ReactGoogleReviewsProps]); the presentational
    props passed through to [Carousel] and [Badge] untouched are left out. *)
Module Props.
Record t := {
  layout : layout;
  structuredData : option bool;
  brandName : option string;
  productName : option string;
  productDescription : option string;
  totalReviewCount : nv jsnum;
  averageRating : nv jsnum;
  reviews : option (list review);
  featurableId : option string
}.
End Props.

(** The hook state of one mounted instance. *)
Module State.
Record t := {
  reviews : list review;
  loading : bool;
  error : bool;
  profileUrl : nv string;
  totalReviewCount : nv jsnum;
  averageRating : nv jsnum
}.
End State.

(** [FeaturableAPIResponse], the parsed body of the widget endpoint. *)
Module Api.
Record t := {
  success : nv bool;
  reviews : list review;
  profileUrl : nv string;
  totalReviewCount : nv jsnum;
  averageRating : nv jsnum
}.
End Api.

(** How the fetch promise chain settles. *)
Inductive fetch_outcome :=
| Rejected                 (* [fetch] rejects (transport error) *)
| BodyParseError           (* [res.json()] rejects *)
| BodyNull                 (* the body is JSON [null]: [data.success] throws *)
| Body (data : Api.t).

(** The page context read by the structured data ([document.title],
    [document.location.href]). *)
Record page := {
  title : string;
  href : string
}.

(** ** Lines 204-218: validation *)

Definition validate (p : Props.t) : option string :=
  if match Props.totalReviewCount p with
     | Val n => js_lt n (JNum 0) || negb (is_integer n)
     | _ => false
     end
  then Some "totalReviewCount must be a positive integer"
  else if match Props.averageRating p with
          | Val r => js_lt r (JNum 1) || js_gt r (JNum 5)
          | _ => false
          end
  then Some "averageRating must be between 1 and 5"
  else None.

(** ** Lines 220-233: initial hook state *)

Definition init_state (p : Props.t) : State.t := {|
  State.reviews := match Props.reviews p with Some rs => rs | None => [] end;
  State.loading := true;
  State.error := false;
  State.profileUrl :=
    match Props.layout p with
    | LBadge (Some u) => Val u
    | _ => Null
    end;
  State.totalReviewCount := or_null (Props.totalReviewCount p);
  State.averageRating := or_null (Props.averageRating p)
|}.

(** State setters used by the effect and its continuation. *)
Definition set_loading (b : bool) (st : State.t) : State.t := {|
  State.reviews := State.reviews st; State.loading := b;
  State.error := State.error st; State.profileUrl := State.profileUrl st;
  State.totalReviewCount := State.totalReviewCount st;
  State.averageRating := State.averageRating st |}.

Definition set_error (b : bool) (st : State.t) : State.t := {|
  State.reviews := State.reviews st; State.loading := State.loading st;
  State.error := b; State.profileUrl := State.profileUrl st;
  State.totalReviewCount := State.totalReviewCount st;
  State.averageRating := State.averageRating st |}.

(** [setReviews], [setProfileUrl], [setTotalReviewCount], [setAverageRating]
    with the fields of the response body. *)
Definition set_from_response (d : Api.t) (st : State.t) : State.t := {|
  State.reviews := Api.reviews d; State.loading := State.loading st;
  State.error := State.error st; State.profileUrl := Api.profileUrl d;
  State.totalReviewCount := Api.totalReviewCount d;
  State.averageRating := Api.averageRating d |}.

(** ** Lines 235-261: the effect and the fetch continuation *)

Definition widget_url (id : string) : string :=
  "https://featurable.com/api/v1/widgets/" ++ id.

(** The effect body: the new state and the URLs fetched. *)
Definition run_effect (p : Props.t) (st : State.t) : State.t * list string :=
  match Props.featurableId p with
  | Some id =>
      if truthy_str (Some id) then (st, [widget_url id])
      else (set_loading false st, [])
  | None => (set_loading false st, [])
  end.

(** [.then(data => ...)], [.catch(() => setError(true))],
    [.finally(() => setLoading(false))]. *)
Definition on_settled (o : fetch_outcome) (st : State.t) : State.t :=
  let st' :=
    match o with
    | Body d =>
        if negb (truthy_bool (Api.success d)) then set_error true st
        else set_from_response d st
    | Rejected | BodyParseError | BodyNull => set_error true st
    end in
  set_loading false st'.

(** ** Lines 280-311: the structured-data document *)

Definition dq_char : ascii := "034"%char.
Definition nl_char : ascii := "010"%char.
Definition dq : string := String dq_char EmptyString.
Definition nl : string := String nl_char EmptyString.

(** A literal double-quoted piece of the template, ["text"]. *)
Definition q (s : string) : string := dq ++ s ++ dq.

(** [Array.prototype.toString] of a string array: join with [","]. *)
Fixpoint join_comma (l : list string) : string :=
  match l with
  | [] => ""
  | [x] => x
  | x :: rest => x ++ "," ++ join_comma rest
  end.

(** [.filter((r) => !!r.reviewer.isAnonymous).slice(0, 10)]. *)
Definition structured_reviews (rs : list review) : list review :=
  firstn 10 (filter (fun r => isAnonymous (reviewer_of r)) rs).

(** The inner template literal of [.map((review) => ...)], lines 302-308. *)
Definition review_json (r : review) : string :=
  "{" ++ nl ++
  "            " ++ q "@type" ++ ": " ++ q "Review" ++ "," ++ nl ++
  "            " ++ q "reviewBody" ++ ": " ++ q (comment r) ++ "," ++ nl ++
  "            " ++ q "datePublished" ++ ": " ++ q (createTime r) ++ "," ++ nl ++
  "            " ++ q "author" ++ ": { " ++ q "@type" ++ ": " ++ q "Person" ++
    ", " ++ q "name" ++ ": " ++ q (displayName (reviewer_of r)) ++ " }," ++ nl ++
  "            " ++ q "reviewRating" ++ ": { " ++ q "@type" ++ ": " ++ q "Rating" ++
    ", " ++ q "ratingValue" ++ ": " ++ number_to_string (starRating r) ++ " }" ++ nl ++
  "        }".

Definition or_default (s : option string) (d : string) : string :=
  match s with Some s => s | None => d end.

(** The outer template literal, lines 281-311. *)
Definition structured_data_doc (pg : page) (p : Props.t)
    (averageRating totalReviewCount : nv jsnum) (reviews : list review) : string :=
  "{" ++ nl ++
  "    " ++ q "@context" ++ ": " ++ q "https://schema.org" ++ "," ++ nl ++
  "    " ++ q "@type" ++ ": " ++ q "Product" ++ "," ++ nl ++
  "    " ++ q "name" ++ ": " ++ q (or_default (Props.productName p) (title pg)) ++ "," ++ nl ++
  "    " ++ q "url" ++ ": " ++ q (href pg) ++ "," ++ nl ++
  "    " ++ q "brand" ++ ": { " ++ q "@type" ++ ": " ++ q "Brand" ++ ", " ++ q "name" ++
    ": " ++ q (or_default (Props.brandName p) (title pg)) ++ " }," ++ nl ++
  "    " ++ q "description" ++ ": " ++ q (or_default (Props.productDescription p) "") ++ "," ++ nl ++
  "    " ++ q "image" ++ ": []," ++ nl ++
  "    " ++ q "aggregateRating" ++ ": {" ++ nl ++
  "        " ++ q "@type" ++ ": " ++ q "AggregateRating" ++ "," ++ nl ++
  "        " ++ q "ratingValue" ++ ": " ++ nv_number_to_string averageRating ++ "," ++ nl ++
  "        " ++ q "reviewCount" ++ ": " ++ nv_number_to_string totalReviewCount ++ "," ++ nl ++
  "        " ++ q "bestRating" ++ ": 5," ++ nl ++
  "        " ++ q "worstRating" ++ ": 1" ++ nl ++
  "    }," ++ nl ++
  "    " ++ q "review" ++ ": [" ++ join_comma (map review_json (structured_reviews reviews)) ++ "]" ++ nl ++
  "}" ++ nl.

(** ** Lines 263-342: what the component returns once the hooks have run *)

(** The children of the wrapping [div]. *)
Inductive child :=
| CScript (json : string)
| CCarousel (reviews : list review)
| CBadge (averageRating totalReviewCount : nv jsnum) (profileUrl : nv string)
| CCustom (reviews : list review).   (* [props.renderer(reviews)] *)

Inductive output :=
| OLoading                        (* [<LoadingState />] *)
| OError                          (* [<ErrorState />] *)
| ODiv (children : list child).

Definition is_carousel (l : layout) : bool :=
  match l with LCarousel => true | _ => false end.
Definition is_badge (l : layout) : bool :=
  match l with LBadge _ => true | _ => false end.
Definition is_custom (l : layout) : bool :=
  match l with LCustom => true | _ => false end.

Definition truthy_opt_bool (b : option bool) : bool :=
  match b with Some true => true | _ => false end.

Definition dispatch (pg : page) (p : Props.t) (st : State.t) : output :=
  let averageRating := State.averageRating st in
  let totalReviewCount := State.totalReviewCount st in
  let reviews := State.reviews st in
  if State.loading st then OLoading
  else if State.error st ||
          (is_badge (Props.layout p) &&
           (is_null averageRating || is_null totalReviewCount))
  then OError
  else ODiv (
    (if truthy_opt_bool (Props.structuredData p) &&
        negb (is_null averageRating) && negb (is_null totalReviewCount)
     then [CScript (structured_data_doc pg p averageRating totalReviewCount reviews)]
     else []) ++
    (if is_carousel (Props.layout p) then [CCarousel reviews] else []) ++
    (if is_badge (Props.layout p)
     then [CBadge averageRating totalReviewCount (State.profileUrl st)] else []) ++
    (if is_custom (Props.layout p) then [CCustom reviews] else [])).

(** The result of calling the component function. *)
Inductive rendered :=
| Thrown (msg : string)
| Rendered (o : output).

Definition render (pg : page) (p : Props.t) (st : State.t) : rendered :=
  match validate p with
  | Some msg => Thrown msg
  | None => Rendered (dispatch pg p st)
  end.

(** The lifecycle state read off the [loading] and [error] flags. *)
Inductive lifecycle := Loading | Error | Ready.

Definition lifecycle_of (st : State.t) : lifecycle :=
  if State.loading st then Loading
  else if State.error st then Error
  else Ready.

(** ** One mounted instance *)

(** The hook state, the [featurableId] the effect last ran with ([None]
    before the first commit) and the log of fetched URLs. *)
Record mount := {
  st : State.t;
  deps : option (option string);
  fetched : list string
}.

Definition dep_eqb (a b : option string) : bool :=
  match a, b with
  | Some x, Some y => String.eqb x y
  | None, None => true
  | _, _ => false
  end.

(** A render with props [p] that commits: the effect runs when the
    dependency [props.featurableId] differs from the last commit's; a render
    that throws commits nothing. *)
Definition commit (p : Props.t) (m : mount) : mount :=
  match validate p with
  | Some _ => m
  | None =>
      match deps m with
      | Some prev => if dep_eqb prev (Props.featurableId p) then m
                     else let (st', urls) := run_effect p (st m) in
                          {| st := st'; deps := Some (Props.featurableId p);
                             fetched := fetched m ++ urls |}
      | None => let (st', urls) := run_effect p (st m) in
                {| st := st'; deps := Some (Props.featurableId p);
                   fetched := fetched m ++ urls |}
      end
  end.

(** The first render and commit of a new instance. *)
Definition mount_instance (p : Props.t) : mount :=
  commit p {| st := init_state p; deps := None; fetched := [] |}.

(** The promise chain of the [k]-th fetch settles with [o]; the continuation
    runs whatever requests were issued since. *)
Definition settle (k : nat) (o : fetch_outcome) (m : mount) : mount :=
  if Nat.ltb k (length (fetched m))
  then {| st := on_settled o (st m); deps := deps m; fetched := fetched m |}
  else m.

Inductive event :=
| Rerender (p : Props.t)
| Settle (k : nat) (o : fetch_outcome).

Fixpoint run (evs : list event) (m : mount) : mount :=
  match evs with
  | [] => m
  | Rerender p :: rest => run rest (commit p m)
  | Settle k o :: rest => run rest (settle k o m)
  end.

(** ** Reading a JSON string value back *)

Definition backslash : ascii := "092"%char.

Definition unescape (e : ascii) : ascii :=
  if Ascii.eqb e "n"%char then nl_char
  else if Ascii.eqb e "t"%char then "009"%char
  else if Ascii.eqb e "r"%char then "013"%char
  else if Ascii.eqb e "b"%char then "008"%char
  else if Ascii.eqb e "f"%char then "012"%char
  else e.

(** The contents of a JSON string literal whose opening quote has been
    consumed: up to the first unescaped quote. *)
Fixpoint read_json_string (s : string) : option string :=
  match s with
  | EmptyString => None
  | String c rest =>
      if Ascii.eqb c dq_char then Some ""
      else if Ascii.eqb c backslash then
        match rest with
        | EmptyString => None
        | String e rest' => option_map (String (unescape e)) (read_json_string rest')
        end
      else option_map (String c) (read_json_string rest)
  end.

Fixpoint strip_prefix (pat s : string) : option string :=
  match pat, s with
  | EmptyString, _ => Some s
  | String c pat', String c' s' =>
      if Ascii.eqb c c' then strip_prefix pat' s' else None
  | String _ _, EmptyString => None
  end.

(** The text after the first occurrence of [pat]. *)
Fixpoint after (pat s : string) : option string :=
  match strip_prefix pat s with
  | Some r => Some r
  | None => match s with EmptyString => None | String _ s' => after pat s' end
  end.

(** The value a JSON reader finds for the first string member [key]. *)
Definition value_of_key (key doc : string) : option string :=
  match after (q key ++ ": " ++ dq) doc with
  | Some r => read_json_string r
  | None => None
  end.

(** ** Views used in the statements *)

(** The badge guard of line 267 together with the [error] flag. *)
Definition error_guard (p : Props.t) (st : State.t) : bool :=
  State.error st ||
  (is_badge (Props.layout p) &&
   (is_null (State.averageRating st) || is_null (State.totalReviewCount st))).

(** The structured-data block, when it is rendered. *)
Definition script_children (pg : page) (p : Props.t) (st : State.t) : list child :=
  if truthy_opt_bool (Props.structuredData p) &&
     negb (is_null (State.averageRating st)) &&
     negb (is_null (State.totalReviewCount st))
  then [CScript (structured_data_doc pg p (State.averageRating st)
                   (State.totalReviewCount st) (State.reviews st))]
  else [].

(** The child the [layout] discriminant selects. *)
Definition layout_child (l : layout) (st : State.t) : child :=
  match l with
  | LCarousel => CCarousel (State.reviews st)
  | LBadge _ => CBadge (State.averageRating st) (State.totalReviewCount st)
                       (State.profileUrl st)
  | LCustom => CCustom (State.reviews st)
  end.

(** The fetch settles without the success branch running. *)
Definition fetch_fails (o : fetch_outcome) : bool :=
  match o with
  | Body d => negb (truthy_bool (Api.success d))
  | Rejected | BodyParseError | BodyNull => true
  end.

(** The URLs the effect fetches for a given [featurableId]. *)
Definition fetch_urls (id : option string) : list string :=
  match id with
  | Some s => if String.eqb s "" then [] else [widget_url s]
  | None => []
  end.

Definition same_dep (d : option (option string)) (id : option string) : bool :=
  match d with Some prev => dep_eqb prev id | None => false end.

(** No quote and no backslash. *)
Fixpoint plain (s : string) : bool :=
  match s with
  | EmptyString => true
  | String c s' => negb (Ascii.eqb c dq_char) && negb (Ascii.eqb c backslash) && plain s'
  end.

(** ** Concrete inputs *)

Definition mk_review (name : string) (anon : bool) (c : string) (stars : Z) : review := {|
  reviewer_of := {| displayName := name; isAnonymous := anon |};
  comment := c;
  createTime := "2024-05-01T10:00:00Z";
  starRating := JNum (inject_Z stars)
|}.

Definition page0 : page := {| title := "Corner Bakery"; href := "https://bakery.example/" |}.

Definition rev_named : review := mk_review "Ann Lee" false "Lovely bread" 5.
Definition rev_anon : review := mk_review "A Google user" true "Nice staff" 4.
Definition rev_quote : review :=
  mk_review "A Google user" true ("Best " ++ q "sourdough" ++ " in town") 5.

Definition mk_props (l : layout) (sd : option bool) (trc ar : nv jsnum)
    (rs : option (list review)) (fid : option string) : Props.t := {|
  Props.layout := l; Props.structuredData := sd;
  Props.brandName := None; Props.productName := None;
  Props.productDescription := None;
  Props.totalReviewCount := trc; Props.averageRating := ar;
  Props.reviews := rs; Props.featurableId := fid
|}.

Definition p_supplied : Props.t :=
  mk_props LCarousel None Undefined Undefined (Some [rev_named; rev_anon]) None.
Definition p_quote : Props.t :=
  mk_props LCarousel (Some true) (Val (JNum 12)) (Val (JNum (9 # 2)))
    (Some [rev_quote]) None.
Definition p_named : Props.t :=
  mk_props LCarousel (Some true) (Val (JNum 12)) (Val (JNum (9 # 2)))
    (Some [rev_named]) None.
Definition p_nan : Props.t :=
  mk_props LCarousel None Undefined (Val JNaN) (Some [rev_named]) None.
Definition p_remote (l : layout) (id : string) : Props.t :=
  mk_props l None Undefined Undefined None (Some id).

Definition body_ok (rs : list review) : Api.t := {|
  Api.success := Val true; Api.reviews := rs; Api.profileUrl := Val "u";
  Api.totalReviewCount := Val (JNum 12); Api.averageRating := Val (JNum (9 # 2))
|}.
Definition body_no_rating : Api.t := {|
  Api.success := Val true; Api.reviews := [rev_named]; Api.profileUrl := Val "u";
  Api.totalReviewCount := Val (JNum 12); Api.averageRating := Null
|}.
Definition body_failed : Api.t := {|
  Api.success := Val false; Api.reviews := []; Api.profileUrl := Undefined;
  Api.totalReviewCount := Undefined; Api.averageRating := Undefined
|}.

(** The values of [totalReviewCount] and [averageRating] the guards of
    lines 204-218 let through, stated on the numbers. *)
Definition count_ok (x : nv jsnum) : Prop :=
  match x with
  | Val (JNum c) => (0 <= c)%Q /\ exists z, (c == inject_Z z)%Q
  | Val _ => False
  | _ => True
  end.

Definition rating_ok (x : nv jsnum) : Prop :=
  match x with
  | Val (JNum r) => (1 <= r /\ r <= 5)%Q
  | Val JNaN => True
  | Val _ => False
  | _ => True
  end.

Definition p_custom : Props.t :=
  mk_props LCustom None Undefined Undefined (Some [rev_anon; rev_named]) None.
Definition body_omits_rating : Api.t := {|
  Api.success := Val true; Api.reviews := [rev_named]; Api.profileUrl := Val "u";
  Api.totalReviewCount := Val (JNum 12); Api.averageRating := Undefined
|}.

Definition p_brand_quote : Props.t := {|
  Props.layout := LCarousel; Props.structuredData := Some true;
  Props.brandName := Some ("Corner " ++ q "Best" ++ " Bakery");
  Props.productName := None; Props.productDescription := None;
  Props.totalReviewCount := Val (JNum 12); Props.averageRating := Val (JNum (9 # 2));
  Props.reviews := Some [rev_named]; Props.featurableId := None
|}.

(** The text of a string up to its first quote. *)
Fixpoint upto_quote (s : string) : string :=
  match s with
  | EmptyString => ""
  | String c s' => if Ascii.eqb c dq_char then "" else String c (upto_quote s')
  end.

Fixpoint no_backslash (s : string) : bool :=
  match s with
  | EmptyString => true
  | String c s' => negb (Ascii.eqb c backslash) && no_backslash s'
  end.

(** The value a JSON reader finds for the string member [key] of the object
    under the first member [outer]. *)
Definition value_of_key_in (outer key doc : string) : option string :=
  match after (q outer ++ ": ") doc with
  | Some r => value_of_key key r
  | None => None
  end.

(** ** Supporting lemmas *)

Lemma append_assoc_str (a b c : string) : (a ++ b) ++ c = a ++ b ++ c.
Proof.
  induction a as [|x a IH]; simpl; [reflexivity | now rewrite IH].
Qed.

Lemma read_json_string_plain (a rest : string) :
  plain a = true -> read_json_string (a ++ dq ++ rest) = Some a.
Proof.
  induction a as [|c a IH]; intros Hp.
  - reflexivity.
  - simpl in Hp. apply andb_prop in Hp as [Hp Ha]. apply andb_prop in Hp as [Hq Hb].
    apply negb_true_iff in Hq, Hb.
    cbn [append read_json_string]. rewrite Hq, Hb, (IH Ha). reflexivity.
Qed.

Lemma after_review_body (r : review) :
  exists rest, after (q "reviewBody" ++ ": " ++ dq) (review_json r) =
               Some (comment r ++ dq ++ rest).
Proof.
  eexists. unfold review_json, q. cbn. rewrite append_assoc_str. reflexivity.
Qed.

(** ** C1: supplied mode *)

(** C1 (counterexample): with [reviews] supplied and no [featurableId], the
    first render returns the loading placeholder: [loading] starts [true]
    in every mode and only the mount effect clears it. *)
Lemma supplied_first_render_is_loading :
  render page0 p_supplied (init_state p_supplied) = Rendered OLoading.
Proof. reflexivity. Qed.

(** C1 (amended): in supplied mode with valid props the first render is the
    loading placeholder; the mount effect issues no fetch and sets the state
    to Ready, with the review sequence exactly the supplied one, and the
    next render is no longer the loading placeholder. *)
Theorem supplied_mode_ready_after_mount (pg : page) (p : Props.t) (R : list review)
    (Hr : Props.reviews p = Some R) (Hf : Props.featurableId p = None)
    (Hv : validate p = None) :
  render pg p (init_state p) = Rendered OLoading /\
  fetched (mount_instance p) = [] /\
  lifecycle_of (st (mount_instance p)) = Ready /\
  State.reviews (st (mount_instance p)) = R /\
  render pg p (st (mount_instance p)) <> Rendered OLoading.
Proof.
  unfold render, mount_instance, commit. rewrite Hv.
  unfold run_effect. rewrite Hf. cbn [st fetched app].
  unfold lifecycle_of, dispatch, set_loading, init_state. cbn. rewrite Hr.
  split; [reflexivity|]. split; [reflexivity|]. split; [reflexivity|].
  split; [reflexivity|].
  destruct (is_badge (Props.layout p) && _); discriminate.
Qed.

Lemma supplied_mode_ready_after_mount_witness :
  Props.reviews p_supplied = Some [rev_named; rev_anon] /\
  Props.featurableId p_supplied = None /\ validate p_supplied = None /\
  State.reviews (st (mount_instance p_supplied)) = [rev_named; rev_anon].
Proof.
  split; [reflexivity|]. split; [reflexivity|]. split; [reflexivity|].
  apply (supplied_mode_ready_after_mount page0 p_supplied [rev_named; rev_anon]);
    reflexivity.
Defined.

(** ** C2: escaping in the structured data *)

(** C2 (counterexample): a comment containing a quote, rendered through the
    component, ends the [reviewBody] value of the document early. *)
Lemma structured_data_quote_ends_value_early :
  match dispatch page0 p_quote (st (mount_instance p_quote)) with
  | ODiv (CScript doc :: _) =>
      value_of_key "reviewBody" doc = Some "Best " /\
      value_of_key "reviewBody" doc <> Some (comment rev_quote)
  | _ => False
  end.
Proof.
  vm_compute. split; [reflexivity | discriminate].
Qed.

(** ** C3: remote success *)

Lemma truthy_str_nonempty (id : string) :
  id <> "" -> truthy_str (Some id) = true.
Proof.
  intros H. simpl. apply negb_true_iff. now apply String.eqb_neq.
Qed.

Lemma mount_remote (p : Props.t) (id : string)
    (Hid : Props.featurableId p = Some id) (Hne : id <> "")
    (Hv : validate p = None) :
  mount_instance p =
  {| st := init_state p; deps := Some (Some id); fetched := [widget_url id] |}.
Proof.
  unfold mount_instance, commit. rewrite Hv. unfold run_effect.
  rewrite Hid, (truthy_str_nonempty id Hne). reflexivity.
Qed.

(** C3: in remote mode the mount issues one fetch and is Loading; when the
    body parses with a truthy [success] the state becomes Ready and all four
    fields are the body's values, whatever the props supplied. *)
Theorem remote_success_overwrites_all (p : Props.t) (id : string) (d : Api.t)
    (Hid : Props.featurableId p = Some id) (Hne : id <> "")
    (Hv : validate p = None) (Hs : truthy_bool (Api.success d) = true) :
  let m1 := mount_instance p in
  let s2 := st (settle 0 (Body d) m1) in
  fetched m1 = [widget_url id] /\
  lifecycle_of (st m1) = Loading /\
  lifecycle_of s2 = Ready /\
  State.reviews s2 = Api.reviews d /\
  State.profileUrl s2 = Api.profileUrl d /\
  State.totalReviewCount s2 = Api.totalReviewCount d /\
  State.averageRating s2 = Api.averageRating d.
Proof.
  cbv zeta. rewrite (mount_remote p id Hid Hne Hv).
  unfold settle, on_settled. cbn [fetched length Nat.ltb Nat.leb st].
  rewrite Hs. cbn. repeat split; reflexivity.
Qed.

Lemma remote_success_overwrites_all_witness :
  State.reviews (st (settle 0 (Body (body_ok [rev_anon]))
                   (mount_instance (p_remote LCarousel "w1")))) = [rev_anon].
Proof.
  apply (remote_success_overwrites_all (p_remote LCarousel "w1") "w1"
           (body_ok [rev_anon])); try reflexivity; discriminate.
Defined.

(** ** C4: remote failure *)

(** C4: in remote mode, when the fetch rejects, the body does not parse, or
    the parsed body's [success] is not truthy, the state becomes Error and
    the component returns the error placeholder without throwing. *)
Theorem remote_failure_renders_error (pg : page) (p : Props.t) (id : string)
    (o : fetch_outcome)
    (Hid : Props.featurableId p = Some id) (Hne : id <> "")
    (Hv : validate p = None) (Hf : fetch_fails o = true) :
  let s2 := st (settle 0 o (mount_instance p)) in
  lifecycle_of s2 = Error /\ render pg p s2 = Rendered OError.
Proof.
  cbv zeta. rewrite (mount_remote p id Hid Hne Hv).
  unfold settle. cbn [fetched length Nat.ltb Nat.leb st].
  assert (He : State.error (on_settled o (init_state p)) = true /\
               State.loading (on_settled o (init_state p)) = false).
  { unfold on_settled. destruct o as [| | |d]; cbn in Hf |- *;
      try (split; reflexivity).
    rewrite Hf. split; reflexivity. }
  destruct He as [He Hl]. split.
  - unfold lifecycle_of. now rewrite He, Hl.
  - unfold render, dispatch. rewrite Hv, He, Hl. reflexivity.
Qed.

Lemma remote_failure_renders_error_witness :
  render page0 (p_remote LCarousel "w1")
    (st (settle 0 (Body body_failed) (mount_instance (p_remote LCarousel "w1"))))
  = Rendered OError.
Proof.
  apply (remote_failure_renders_error page0 (p_remote LCarousel "w1") "w1"
           (Body body_failed)); try reflexivity; discriminate.
Defined.

(** ** C5: validation *)

(** For a finite [averageRating] (and no [totalReviewCount]) the guard
    rejects exactly the ratings outside [[1, 5]]. *)
Lemma validate_finite_rating (p : Props.t) (r : Q)
    (Ht : not_nullish (Props.totalReviewCount p) = false)
    (Ha : Props.averageRating p = Val (JNum r)) :
  validate p = None <-> (1 <= r /\ r <= 5)%Q.
Proof.
  unfold validate. rewrite Ha.
  destruct (Props.totalReviewCount p); [| |discriminate]; cbn;
  rewrite <- (Qle_bool_iff 1 r), <- (Qle_bool_iff r 5);
  destruct (Qle_bool 1 r), (Qle_bool r 5); cbn; split;
  intros H; try discriminate; try (destruct H; discriminate); auto.
Qed.

(** C5 (failing input): [averageRating = NaN] is neither below 1 nor above 5
    for JS comparisons, so the guard lets it through: validation passes and
    the component renders, then mounts to Ready with a [NaN] rating. *)
Theorem nan_average_rating_accepted :
  validate p_nan = None /\
  render page0 p_nan (init_state p_nan) = Rendered OLoading /\
  lifecycle_of (st (mount_instance p_nan)) = Ready /\
  State.averageRating (st (mount_instance p_nan)) = Val JNaN.
Proof. vm_compute. repeat split. Qed.

(** ** C6: the badge guard *)

(** With the badge layout and the state Ready, a [null] average rating
    or review count gives the error placeholder, the same output as after an
    acquisition failure. *)
Theorem badge_null_aggregate_renders_error (pg : page) (p : Props.t)
    (s : State.t) (u : option string)
    (Hl : Props.layout p = LBadge u) (Hr : lifecycle_of s = Ready)
    (Hn : is_null (State.averageRating s) = true \/
          is_null (State.totalReviewCount s) = true)
    (Hv : validate p = None) :
  render pg p s = Rendered OError /\
  render pg p s = render pg p (set_error true s).
Proof.
  unfold lifecycle_of in Hr.
  destruct (State.loading s) eqn:Hload; [discriminate|].
  destruct (State.error s) eqn:Herr; [discriminate|].
  assert (Hg : (is_null (State.averageRating s) ||
                is_null (State.totalReviewCount s)) = true).
  { destruct Hn as [H|H]; rewrite H; [reflexivity | apply orb_true_r]. }
  unfold render, dispatch, set_error. rewrite Hv. cbn.
  rewrite Hload, Herr, Hl. cbn. rewrite Hg. split; reflexivity.
Qed.

Lemma badge_null_aggregate_renders_error_witness :
  render page0 (p_remote (LBadge None) "w2")
    (st (settle 0 (Body body_no_rating) (mount_instance (p_remote (LBadge None) "w2"))))
  = Rendered OError.
Proof.
  apply (badge_null_aggregate_renders_error page0 (p_remote (LBadge None) "w2") _ None);
    try reflexivity. left. reflexivity.
Defined.

(** C6 (code bug): with the badge layout, a success response that omits
    [averageRating] leaves the rating [undefined]. The guard
    [averageRating === null] misses it, so the instance, Ready, renders the
    [Badge] with an undefined rating instead of the error placeholder. *)
Theorem badge_omitted_rating_renders_badge :
  let m := settle 0 (Body body_omits_rating) (mount_instance (p_remote (LBadge None) "w4")) in
  lifecycle_of (st m) = Ready /\
  State.averageRating (st m) = Undefined /\
  render page0 (p_remote (LBadge None) "w4") (st m) =
    Rendered (ODiv [CBadge Undefined (Val (JNum 12)) (Val "u")]) /\
  render page0 (p_remote (LBadge None) "w4") (st m) <> Rendered OError.
Proof.
  vm_compute. split; [reflexivity|]. split; [reflexivity|].
  split; [reflexivity | discriminate].
Qed.

(** ** C7: render precedence *)

(** C7: the returned JSX is the loading placeholder whenever [loading] is
    set; otherwise the error placeholder whenever [error] is set or the
    badge guard fires; otherwise a [div] holding the structured-data block
    when enabled and exactly one layout child, the one [layout] selects. *)
Theorem dispatch_precedence (pg : page) (p : Props.t) (s : State.t) :
  dispatch pg p s =
  if State.loading s then OLoading
  else if error_guard p s then OError
  else ODiv (script_children pg p s ++ [layout_child (Props.layout p) s]).
Proof.
  unfold dispatch, error_guard, script_children, layout_child.
  destruct (State.loading s); [reflexivity|].
  destruct (_ || _); [reflexivity|].
  f_equal. f_equal.
  destruct (Props.layout p); reflexivity.
Qed.

(** ** C8: the review list of the structured data *)

(** C8 (failing input): the filter keeps the reviews whose reviewer IS
    anonymous; a single named review yields an empty review list in the
    document, an anonymous one is kept. *)
Theorem structured_reviews_keep_anonymous :
  structured_reviews [rev_named] = [] /\
  structured_reviews [rev_anon] = [rev_anon] /\
  match dispatch page0 p_named (st (mount_instance p_named)) with
  | ODiv (CScript doc :: _) => value_of_key "reviewBody" doc = None
  | _ => False
  end.
Proof.
  split; [reflexivity|]. split; [reflexivity|]. vm_compute. reflexivity.
Qed.

(** ** C9: fetches across re-renders *)

(** C9 (counterexample): mount with widget "a", re-render with widget "b"
    (a second fetch is issued), then the first fetch settles: its reviews
    are written to the state although the newest request is for "b". *)
Lemma stale_response_applied :
  let m := run [Rerender (p_remote LCarousel "b");
                Settle 0 (Body (body_ok [rev_named]))]
               (mount_instance (p_remote LCarousel "a")) in
  fetched m = [widget_url "a"; widget_url "b"] /\
  State.reviews (st m) = [rev_named] /\
  lifecycle_of (st m) = Ready.
Proof. vm_compute. repeat split. Qed.

(** C9 (amended): a committed render fetches only when [featurableId]
    differs from the last commit's, and then fetches exactly once when the
    new id is a non-empty string (never for an absent or empty id); a
    settling fetch writes its result whatever requests were issued after
    it. *)
Theorem fetch_per_dependency_change (p : Props.t) (m : mount)
    (Hv : validate p = None) :
  fetched (commit p m) =
    (fetched m ++ (if same_dep (deps m) (Props.featurableId p) then []
                   else fetch_urls (Props.featurableId p)))%list /\
  (forall k o, (k < length (fetched m))%nat -> st (settle k o m) = on_settled o (st m)).
Proof.
  split.
  - assert (He : snd (run_effect p (st m)) = fetch_urls (Props.featurableId p)).
    { unfold run_effect, fetch_urls.
      destruct (Props.featurableId p) as [id|]; [|reflexivity].
      unfold truthy_str. destruct (String.eqb id ""); reflexivity. }
    unfold commit, same_dep. rewrite Hv.
    destruct (deps m) as [prev|].
    + destruct (dep_eqb prev (Props.featurableId p)).
      * symmetry. apply app_nil_r.
      * rewrite <- He. destruct (run_effect p (st m)). reflexivity.
    + rewrite <- He. destruct (run_effect p (st m)). reflexivity.
  - intros k o Hk. unfold settle.
    apply Nat.ltb_lt in Hk. now rewrite Hk.
Qed.

Lemma fetch_per_dependency_change_witness :
  fetched (commit (p_remote LCarousel "b") (mount_instance (p_remote LCarousel "a")))
  = [widget_url "a"; widget_url "b"].
Proof.
  rewrite (proj1 (fetch_per_dependency_change (p_remote LCarousel "b")
                    (mount_instance (p_remote LCarousel "a")) eq_refl)).
  vm_compute. reflexivity.
Defined.

(** ** C10: failure keeps the resolved data *)

(** C10: the failure branches write only [error] and [loading]; after a
    failed fetch of a fresh remote-mode instance the four data fields are
    still their initial values: no reviews, the badge [profileUrl] prop or
    [null], and the supplied aggregates or [null]. *)
Theorem remote_failure_keeps_initial_data (p : Props.t) (id : string)
    (o : fetch_outcome)
    (Hid : Props.featurableId p = Some id) (Hne : id <> "")
    (Hr : Props.reviews p = None)
    (Hv : validate p = None) (Hf : fetch_fails o = true) :
  (forall s, on_settled o s = set_loading false (set_error true s)) /\
  let s2 := st (settle 0 o (mount_instance p)) in
  State.reviews s2 = [] /\
  State.profileUrl s2 =
    match Props.layout p with LBadge (Some u) => Val u | _ => Null end /\
  State.totalReviewCount s2 = or_null (Props.totalReviewCount p) /\
  State.averageRating s2 = or_null (Props.averageRating p).
Proof.
  assert (Hframe : forall s, on_settled o s = set_loading false (set_error true s)).
  { intros s. unfold on_settled.
    destruct o as [| | |d]; cbn in Hf; try reflexivity. rewrite Hf. reflexivity. }
  split; [exact Hframe|].
  cbv zeta. rewrite (mount_remote p id Hid Hne Hv).
  unfold settle. cbn [fetched length Nat.ltb Nat.leb st].
  rewrite Hframe. unfold init_state. cbn. rewrite Hr.
  repeat split; reflexivity.
Qed.

Lemma remote_failure_keeps_initial_data_witness :
  State.averageRating
    (st (settle 0 Rejected (mount_instance (p_remote (LBadge (Some "https://g.page/x")) "w3"))))
  = Null.
Proof.
  apply (remote_failure_keeps_initial_data
           (p_remote (LBadge (Some "https://g.page/x")) "w3") "w3" Rejected);
    try reflexivity; discriminate.
Defined.

(** * Further properties of the component *)

(** ** Validation *)

Lemma rem_zero_iff_integral (c : Q) :
  Z.rem (Qnum c) (Zpos (Qden c)) = 0%Z <-> exists z, (c == inject_Z z)%Q.
Proof.
  destruct c as [n d]. unfold Qeq, inject_Z. cbn [Qnum Qden].
  rewrite Z.mul_1_r. split.
  - intros H. apply Z.rem_divide in H; [|lia].
    destruct H as [z Hz]. exists z. lia.
  - intros [z Hz]. apply Z.rem_divide; [lia|]. exists z. lia.
Qed.

(** The guards throw exactly when [totalReviewCount] is given and is not a
    non-negative integer ([NaN] and the infinities included), or
    [averageRating] is given and is a number outside [[1, 5]] or an
    infinity; [NaN] passes the rating guard. *)
Theorem validate_accepts_iff (p : Props.t) :
  validate p = None <->
  count_ok (Props.totalReviewCount p) /\ rating_ok (Props.averageRating p).
Proof.
  unfold validate.
  assert (Hc : (match Props.totalReviewCount p with
                | Val n => js_lt n (JNum 0) || negb (is_integer n)
                | _ => false end = false) <-> count_ok (Props.totalReviewCount p)).
  { destruct (Props.totalReviewCount p) as [| |[c| | |]]; cbn;
      try (split; intros H; first [discriminate | contradiction | exact I | reflexivity]).
    rewrite <- rem_zero_iff_integral, <- (Qle_bool_iff 0 c).
    destruct (Qle_bool 0 c), (Z.eqb_spec (Z.rem (Qnum c) (Zpos (Qden c))) 0);
      cbn; intuition congruence. }
  assert (Hr : (match Props.averageRating p with
                | Val r => js_lt r (JNum 1) || js_gt r (JNum 5)
                | _ => false end = false) <-> rating_ok (Props.averageRating p)).
  { destruct (Props.averageRating p) as [| |[r| | |]]; cbn;
      try (split; intros H; first [discriminate | contradiction | exact I | reflexivity]).
    rewrite <- (Qle_bool_iff 1 r), <- (Qle_bool_iff r 5).
    destruct (Qle_bool 1 r), (Qle_bool r 5); cbn; intuition congruence. }
  destruct (match Props.totalReviewCount p with
            | Val n => js_lt n (JNum 0) || negb (is_integer n)
            | _ => false end);
  destruct (match Props.averageRating p with
            | Val r => js_lt r (JNum 1) || js_gt r (JNum 5)
            | _ => false end);
  split; intros H; try discriminate; try tauto.
  - destruct H as [H _]. apply Hc in H. discriminate.
  - destruct H as [H _]. apply Hc in H. discriminate.
  - destruct H as [_ H]. apply Hr in H. discriminate.
Qed.

(** ** The structured-data review list *)

(** The review list holds at most 10 reviews, all with [isAnonymous] set;
    when there are at most 10 such reviews it holds all of them, in input
    order. *)
Theorem structured_reviews_bounded (rs : list review) :
  (length (structured_reviews rs) <= 10)%nat /\
  Forall (fun r => isAnonymous (reviewer_of r) = true) (structured_reviews rs) /\
  ((length (filter (fun r => isAnonymous (reviewer_of r)) rs) <= 10)%nat ->
   structured_reviews rs = filter (fun r => isAnonymous (reviewer_of r)) rs).
Proof.
  unfold structured_reviews.
  set (anon := filter (fun r => isAnonymous (reviewer_of r)) rs).
  assert (Ha : Forall (fun r => isAnonymous (reviewer_of r) = true) anon).
  { apply Forall_forall. intros r Hin. now apply filter_In in Hin. }
  split; [|split].
  - apply firstn_le_length.
  - rewrite <- (firstn_skipn 10 anon) in Ha. now apply Forall_app in Ha.
  - intros Hl. now apply firstn_all2.
Qed.

Lemma structured_reviews_bounded_witness :
  structured_reviews [rev_anon; rev_named] = [rev_anon].
Proof.
  apply (proj2 (proj2 (structured_reviews_bounded [rev_anon; rev_named]))).
  cbn. repeat constructor.
Defined.

(** ** The lifecycle flags across re-renders and fetch completions *)

(** A committed re-render changes no data field and never sets [error]: it
    leaves the state as it is or only clears [loading]. New [reviews],
    [profileUrl] or aggregate props after mount are not picked up. *)
Theorem commit_only_clears_loading (p : Props.t) (m : mount) :
  st (commit p m) = st m \/ st (commit p m) = set_loading false (st m).
Proof.
  assert (He : fst (run_effect p (st m)) = st m \/
               fst (run_effect p (st m)) = set_loading false (st m)).
  { unfold run_effect. destruct (Props.featurableId p) as [id|]; [|now right].
    destruct (truthy_str (Some id)); [now left | now right]. }
  unfold commit. destruct (validate p); [now left|].
  destruct (deps m) as [prev|].
  - destruct (dep_eqb prev (Props.featurableId p)); [now left|].
    destruct (run_effect p (st m)) eqn:Hr. exact He.
  - destruct (run_effect p (st m)) eqn:Hr. exact He.
Qed.

Lemma flags_step (e : event) (m : mount) :
  (State.error (st m) = true ->
   State.error (st (run [e] m)) = true) /\
  (State.loading (st m) = false ->
   State.loading (st (run [e] m)) = false).
Proof.
  destruct e as [p|k o]; cbn [run].
  - destruct (commit_only_clears_loading p m) as [H|H]; rewrite H; now split.
  - unfold settle. destruct (Nat.ltb k (length (fetched m))); [|now split].
    cbn [st]. unfold on_settled.
    destruct o as [| | |d]; [now split..|].
    destruct (negb (truthy_bool (Api.success d))); now split.
Qed.

(** Nothing in the component sets [error] back to [false] or [loading] back
    to [true]: once set, [error] stays set and once cleared, [loading] stays
    cleared, whatever renders and fetch completions follow. *)
Theorem flags_monotone (evs : list event) (m : mount) :
  (State.error (st m) = true -> State.error (st (run evs m)) = true) /\
  (State.loading (st m) = false -> State.loading (st (run evs m)) = false).
Proof.
  revert m. induction evs as [|e evs IH]; intros m; [now split|].
  destruct (flags_step e m) as [H1 H2].
  assert (Hrun : run (e :: evs) m = run evs (run [e] m)) by (destruct e; reflexivity).
  rewrite Hrun. destruct (IH (run [e] m)) as [I1 I2]. split; auto.
Qed.

Lemma flags_monotone_witness :
  State.error (st (run [Rerender (p_remote LCarousel "b");
                        Settle 1 (Body (body_ok [rev_named]))]
                       (settle 0 Rejected (mount_instance (p_remote LCarousel "a")))))
  = true.
Proof.
  apply (proj1 (flags_monotone _ _)). reflexivity.
Defined.

(** Once a fetch has failed, every later render with valid props is the
    error placeholder, also after switching to another [featurableId] whose
    fetch succeeds. *)
Theorem error_placeholder_sticky (pg : page) (p : Props.t) (m : mount)
    (evs : list event)
    (He : State.error (st m) = true) (Hl : State.loading (st m) = false)
    (Hv : validate p = None) :
  render pg p (st (run evs m)) = Rendered OError.
Proof.
  destruct (flags_monotone evs m) as [H1 H2].
  unfold render, dispatch. rewrite Hv, (H2 Hl), (H1 He). reflexivity.
Qed.

Lemma error_placeholder_sticky_witness :
  render page0 (p_remote LCarousel "b")
    (st (run [Rerender (p_remote LCarousel "b");
              Settle 1 (Body (body_ok [rev_named]))]
             (settle 0 Rejected (mount_instance (p_remote LCarousel "a")))))
  = Rendered OError.
Proof.
  apply error_placeholder_sticky; reflexivity.
Defined.

(** ** Edge branches of the effect and of the badge guard *)

(** An empty [featurableId] is falsy: the mount issues no fetch and goes
    straight to Ready with the initial state (no reviews). *)
Theorem empty_featurable_id_no_fetch (p : Props.t)
    (Hid : Props.featurableId p = Some "") (Hv : validate p = None) :
  fetched (mount_instance p) = [] /\
  st (mount_instance p) = set_loading false (init_state p) /\
  lifecycle_of (st (mount_instance p)) = Ready.
Proof.
  unfold mount_instance, commit. rewrite Hv. unfold run_effect. rewrite Hid.
  cbn. repeat split; reflexivity.
Qed.

Lemma empty_featurable_id_no_fetch_witness :
  fetched (mount_instance (p_remote LCarousel "")) = [].
Proof.
  apply (empty_featurable_id_no_fetch (p_remote LCarousel "")); reflexivity.
Defined.

(** The badge guard compares with [=== null]: a Ready badge whose average
    rating is [undefined] (a success body without the field) renders the
    [Badge] with [averageRating] undefined, not the error placeholder. *)
Theorem badge_undefined_rating_renders_badge (pg : page) (p : Props.t)
    (s : State.t) (u : option string)
    (Hl : Props.layout p = LBadge u) (Hr : lifecycle_of s = Ready)
    (Ha : State.averageRating s = Undefined)
    (Ht : is_null (State.totalReviewCount s) = false)
    (Hv : validate p = None) :
  render pg p s =
  Rendered (ODiv (script_children pg p s ++
                  [CBadge Undefined (State.totalReviewCount s) (State.profileUrl s)])).
Proof.
  unfold lifecycle_of in Hr.
  destruct (State.loading s) eqn:Hload; [discriminate|].
  destruct (State.error s) eqn:Herr; [discriminate|].
  unfold render. rewrite Hv, dispatch_precedence.
  unfold error_guard, layout_child. rewrite Hload, Herr, Hl, Ha, Ht. reflexivity.
Qed.

Lemma badge_undefined_rating_renders_badge_witness :
  render page0 (p_remote (LBadge None) "w4")
    (st (settle 0 (Body body_omits_rating) (mount_instance (p_remote (LBadge None) "w4"))))
  = Rendered (ODiv [CBadge Undefined (Val (JNum 12)) (Val "u")]).
Proof.
  rewrite (badge_undefined_rating_renders_badge page0 (p_remote (LBadge None) "w4")
             _ None); reflexivity.
Defined.

(** The custom layout of a supplied-mode instance, once mounted, calls the
    renderer with exactly the supplied review sequence and renders nothing
    else but the structured-data block when that is enabled. *)
Theorem custom_renderer_gets_supplied_reviews (pg : page) (p : Props.t)
    (R : list review)
    (Hl : Props.layout p = LCustom) (Hr : Props.reviews p = Some R)
    (Hf : Props.featurableId p = None) (Hv : validate p = None) :
  render pg p (st (mount_instance p)) =
  Rendered (ODiv (script_children pg p (st (mount_instance p)) ++ [CCustom R])).
Proof.
  unfold render. rewrite Hv, dispatch_precedence.
  unfold mount_instance, commit. rewrite Hv. unfold run_effect. rewrite Hf.
  cbn [st fst]. unfold error_guard, layout_child, set_loading, init_state.
  cbn. rewrite Hl, Hr. reflexivity.
Qed.

Lemma custom_renderer_gets_supplied_reviews_witness :
  render page0 p_custom (st (mount_instance p_custom))
  = Rendered (ODiv [CCustom [rev_anon; rev_named]]).
Proof.
  rewrite (custom_renderer_gets_supplied_reviews page0 p_custom [rev_anon; rev_named]);
    reflexivity.
Defined.

(** ** Reading the structured-data fields back *)

(** A search for a key, which starts with a quote, passes over a string
    without quotes. *)
Lemma after_skip_plain (pat s rest : string) :
  plain s = true ->
  after (String dq_char pat) (s ++ rest) = after (String dq_char pat) rest.
Proof.
  induction s as [|c s IH]; intros Hp; [reflexivity|].
  cbn in Hp. apply andb_prop in Hp as [Hp Hs]. apply andb_prop in Hp as [Hq _].
  apply negb_true_iff in Hq. rewrite Ascii.eqb_sym in Hq.
  cbn [append after strip_prefix]. rewrite Hq. now apply IH.
Qed.

Lemma strip_key_value (key s tl rest : string) (c : ascii) :
  plain key = true -> plain s = true -> Ascii.eqb ":"%char c = false ->
  strip_prefix (key ++ String dq_char (String ":"%char tl))
               (s ++ String dq_char (String c rest)) = None.
Proof.
  revert s. induction key as [|k key IH]; intros s Hk Hs Hc.
  - destruct s as [|x s].
    + cbn [append strip_prefix]. rewrite Ascii.eqb_refl, Hc. reflexivity.
    + cbn [plain] in Hs. cbn [append strip_prefix].
      apply andb_prop in Hs as [Hs _]. apply andb_prop in Hs as [Hx _].
      apply negb_true_iff in Hx. rewrite Ascii.eqb_sym in Hx. now rewrite Hx.
  - cbn [plain] in Hk. apply andb_prop in Hk as [Hk Hkey]. apply andb_prop in Hk as [Hkq _].
    apply negb_true_iff in Hkq.
    destruct s as [|x s].
    + cbn [append strip_prefix]. now rewrite Hkq.
    + cbn [plain] in Hs. cbn [append strip_prefix]. apply andb_prop in Hs as [_ Hs].
      destruct (Ascii.eqb k x); [now apply IH | reflexivity].
Qed.

(** A search for the key [key] passes over a quoted value without quotes
    that is followed by anything but a colon. *)
Lemma after_skip_value (key s rest : string) (c : ascii) :
  plain key = true -> plain s = true -> Ascii.eqb ":"%char c = false ->
  after (String dq_char (key ++ String dq_char (": " ++ dq)))
        (String dq_char (s ++ String dq_char (String c rest))) =
  after (String dq_char (key ++ String dq_char (": " ++ dq)))
        (String dq_char (String c rest)).
Proof.
  intros Hk Hs Hc. cbn [after strip_prefix append]. rewrite Ascii.eqb_refl.
  rewrite (strip_key_value key s (String " "%char dq) rest c Hk Hs Hc).
  cbn [after]. rewrite after_skip_plain by exact Hs. reflexivity.
Qed.

Lemma after_cons (pat : string) (c : ascii) (s : string) :
  after pat (String c s) =
  match strip_prefix pat (String c s) with
  | Some r => Some r
  | None => after pat s
  end.
Proof. reflexivity. Qed.

Ltac read_back key :=
  cbn [append];
  repeat first [ rewrite (after_skip_value key) by first [assumption | reflexivity]
               | rewrite after_skip_plain by assumption
               | rewrite after_cons; cbn -[after]
               | apply read_json_string_plain; assumption ].

(** Each review entry carries its comment, publish time and author name:
    when they have no quotes or backslashes, a JSON reader finds them as
    the entry's [reviewBody], [datePublished] and [name]. *)
Theorem review_json_fields_read_back (r : review)
    (Hc : plain (comment r) = true) (Ht : plain (createTime r) = true)
    (Hn : plain (displayName (reviewer_of r)) = true) :
  value_of_key "reviewBody" (review_json r) = Some (comment r) /\
  value_of_key "datePublished" (review_json r) = Some (createTime r) /\
  value_of_key "name" (review_json r) = Some (displayName (reviewer_of r)).
Proof.
  unfold value_of_key, review_json, q. rewrite !append_assoc_str.
  split; [read_back "reviewBody" | split; [read_back "datePublished" | read_back "name"]].
Qed.

Lemma review_json_fields_read_back_witness :
  value_of_key "name" (review_json rev_named) = Some "Ann Lee".
Proof.
  apply (review_json_fields_read_back rev_named); reflexivity.
Defined.

(** The product fields of the document: when the strings have no quotes or
    backslashes, a JSON reader finds [name] = [productName ?? document.title],
    [url] = the page URL and [description] = [productDescription ?? ""]. *)
Theorem structured_data_fields_read_back (pg : page) (p : Props.t)
    (averageRating totalReviewCount : nv jsnum) (rs : list review)
    (Hn : plain (or_default (Props.productName p) (title pg)) = true)
    (Hh : plain (href pg) = true)
    (Hb : plain (or_default (Props.brandName p) (title pg)) = true)
    (Hd : plain (or_default (Props.productDescription p) "") = true) :
  let doc := structured_data_doc pg p averageRating totalReviewCount rs in
  value_of_key "name" doc = Some (or_default (Props.productName p) (title pg)) /\
  value_of_key "url" doc = Some (href pg) /\
  value_of_key "description" doc = Some (or_default (Props.productDescription p) "").
Proof.
  cbv zeta. unfold value_of_key, structured_data_doc, q.
  revert Hn Hh Hb Hd.
  generalize (or_default (Props.productName p) (title pg)) as nm.
  generalize (href pg) as hr.
  generalize (or_default (Props.brandName p) (title pg)) as bd.
  generalize (or_default (Props.productDescription p) "") as ds.
  generalize (join_comma (map review_json (structured_reviews rs))) as body.
  generalize (nv_number_to_string averageRating) as ar.
  generalize (nv_number_to_string totalReviewCount) as tc.
  intros tc ar body ds bd hr nm Hn Hh Hb Hd.
  rewrite !append_assoc_str.
  split; [read_back "name" | split; [read_back "url" | read_back "description"]].
Qed.

Lemma structured_data_fields_read_back_witness :
  value_of_key "description"
    (structured_data_doc page0 p_named (Val (JNum (9 # 2))) (Val (JNum 12)) [rev_named])
  = Some "".
Proof.
  apply (structured_data_fields_read_back page0 p_named); reflexivity.
Defined.

(** ** Verbatim interpolation of the user strings *)

Lemma upto_quote_plain (v : string) : plain v = true -> upto_quote v = v.
Proof.
  induction v as [|c v IH]; intros Hp; [reflexivity|].
  cbn [plain] in Hp. apply andb_prop in Hp as [Hp Hv]. apply andb_prop in Hp as [Hq _].
  apply negb_true_iff in Hq. cbn [upto_quote]. now rewrite Hq, IH.
Qed.

Lemma upto_quote_first (a b : string) : plain a = true -> upto_quote (a ++ dq ++ b) = a.
Proof.
  induction a as [|c a IH]; intros Hp; [reflexivity|].
  cbn [plain] in Hp. apply andb_prop in Hp as [Hp Ha]. apply andb_prop in Hp as [Hq _].
  apply negb_true_iff in Hq. cbn [append upto_quote]. now rewrite Hq, IH.
Qed.

(** Without backslashes the reader stops at the first quote of the value. *)
Lemma read_json_string_upto (v rest : string) :
  no_backslash v = true -> read_json_string (v ++ dq ++ rest) = Some (upto_quote v).
Proof.
  induction v as [|c v IH]; intros Hv; [reflexivity|].
  cbn [no_backslash] in Hv. apply andb_prop in Hv as [Hb Hv]. apply negb_true_iff in Hb.
  cbn [append read_json_string upto_quote].
  destruct (Ascii.eqb c dq_char); [reflexivity|]. now rewrite Hb, IH.
Qed.

(** [after_skip_value] for any text after the colon of the pattern. *)
Lemma after_skip_value_gen (key tl s rest : string) (c : ascii) :
  plain key = true -> plain s = true -> Ascii.eqb ":"%char c = false ->
  after (String dq_char (key ++ String dq_char (String ":"%char tl)))
        (String dq_char (s ++ String dq_char (String c rest))) =
  after (String dq_char (key ++ String dq_char (String ":"%char tl)))
        (String dq_char (String c rest)).
Proof.
  intros Hk Hs Hc. cbn [after strip_prefix append]. rewrite Ascii.eqb_refl.
  rewrite (strip_key_value key s tl rest c Hk Hs Hc).
  cbn [after]. rewrite after_skip_plain by exact Hs. reflexivity.
Qed.

Ltac read_upto key tl :=
  cbn [append];
  repeat first [ rewrite (after_skip_value_gen key tl) by first [assumption | reflexivity]
               | rewrite after_skip_plain by assumption
               | rewrite after_cons; cbn -[after]
               | apply read_json_string_upto; assumption ].

(** C2 (amended): every user string of the structured data is interpolated
    verbatim, without escaping. For a value without backslashes, a JSON
    reader reads back exactly the value's text up to its first quote: the
    whole value when it has no quote, and the text before the first quote
    otherwise. This holds for the review entry's [reviewBody] (comment),
    [datePublished] (createTime) and author [name] (displayName), and for
    the document's [name] (productName ?? title), [url] (page URL),
    [brand.name] (brandName ?? title) and [description]
    (productDescription ?? ""), given the strings interpolated before the
    value have no quotes or backslashes. *)
Theorem user_strings_interpolated_verbatim (r : review) (pg : page) (p : Props.t)
    (averageRating totalReviewCount : nv jsnum) (rs : list review) :
  (forall v, plain v = true -> upto_quote v = v) /\
  (forall a b, plain a = true -> upto_quote (a ++ dq ++ b) = a) /\
  (no_backslash (comment r) = true ->
   value_of_key "reviewBody" (review_json r) = Some (upto_quote (comment r))) /\
  (plain (comment r) = true -> no_backslash (createTime r) = true ->
   value_of_key "datePublished" (review_json r) = Some (upto_quote (createTime r))) /\
  (plain (comment r) = true -> plain (createTime r) = true ->
   no_backslash (displayName (reviewer_of r)) = true ->
   value_of_key "name" (review_json r) = Some (upto_quote (displayName (reviewer_of r)))) /\
  (no_backslash (or_default (Props.productName p) (title pg)) = true ->
   value_of_key "name" (structured_data_doc pg p averageRating totalReviewCount rs) =
   Some (upto_quote (or_default (Props.productName p) (title pg)))) /\
  (plain (or_default (Props.productName p) (title pg)) = true ->
   no_backslash (href pg) = true ->
   value_of_key "url" (structured_data_doc pg p averageRating totalReviewCount rs) =
   Some (upto_quote (href pg))) /\
  (plain (or_default (Props.productName p) (title pg)) = true ->
   plain (href pg) = true ->
   no_backslash (or_default (Props.brandName p) (title pg)) = true ->
   value_of_key_in "brand" "name"
     (structured_data_doc pg p averageRating totalReviewCount rs) =
   Some (upto_quote (or_default (Props.brandName p) (title pg)))) /\
  (plain (or_default (Props.productName p) (title pg)) = true ->
   plain (href pg) = true ->
   plain (or_default (Props.brandName p) (title pg)) = true ->
   no_backslash (or_default (Props.productDescription p) "") = true ->
   value_of_key "description" (structured_data_doc pg p averageRating totalReviewCount rs) =
   Some (upto_quote (or_default (Props.productDescription p) ""))).
Proof.
  split; [exact upto_quote_plain|]. split; [exact upto_quote_first|].
  split; [|split; [|split]].
  - intros. unfold value_of_key, review_json, q. rewrite !append_assoc_str.
    read_upto "reviewBody" (String " " dq).
  - intros. unfold value_of_key, review_json, q. rewrite !append_assoc_str.
    read_upto "datePublished" (String " " dq).
  - intros. unfold value_of_key, review_json, q. rewrite !append_assoc_str.
    read_upto "name" (String " " dq).
  - unfold value_of_key_in, value_of_key, structured_data_doc, q.
    generalize (or_default (Props.productName p) (title pg)) as nm.
    generalize (href pg) as hr.
    generalize (or_default (Props.brandName p) (title pg)) as bd.
    generalize (or_default (Props.productDescription p) "") as ds.
    generalize (join_comma (map review_json (structured_reviews rs))) as body.
    generalize (nv_number_to_string averageRating) as ar.
    generalize (nv_number_to_string totalReviewCount) as tc.
    intros tc ar body ds bd hr nm. rewrite !append_assoc_str.
    split; [intros; read_upto "name" (String " " dq)|].
    split; [intros; read_upto "url" (String " " dq)|].
    split; [intros; read_upto "brand" " " | intros; read_upto "description" (String " " dq)].
Qed.

Lemma user_strings_interpolated_verbatim_witness :
  no_backslash (comment rev_quote) = true /\
  value_of_key "reviewBody" (review_json rev_quote) = Some "Best " /\
  value_of_key_in "brand" "name"
    (structured_data_doc page0 p_brand_quote (Val (JNum (9 # 2))) (Val (JNum 12))
       [rev_named]) = Some "Corner ".
Proof.
  destruct (user_strings_interpolated_verbatim rev_quote page0 p_brand_quote
              (Val (JNum (9 # 2))) (Val (JNum 12)) [rev_named])
    as (_ & _ & Hc & _ & _ & _ & _ & Hb & _).
  split; [reflexivity|]. split.
  - rewrite Hc by reflexivity. reflexivity.
  - rewrite Hb by reflexivity. reflexivity.
Defined.
